(** * Graph.tsx: the airtime chart's state engine

    A shallow embedding of [src/components/result/Graph.tsx]: the series
    recomputation ([updateGraph]), the three reactive effects (configuration,
    vertical scale, horizontal range) and the React state they update
    ([data], [layout], [revision], the two axis flags).

    Conventions of the embedding:
    - a JavaScript [number] that counts something (payload bytes, milliseconds
      of dwell time, pixels, the revision) is a [Z]; a number that is a chart
      coordinate or an airtime is a real [R].  IEEE-754 rounding is not
      modelled;
    - a state setter called with an updater function is a state transformer;
      the updaters of one effect are applied in the order they are queued;
    - the layout is an object: the state holds a reference into a store of
      layout objects, so that an update in place and an update that builds a
      new object can be told apart. *)

From Stdlib Require Import ZArith Reals Lra Lia String List Bool.
From stdpp Require Import base option list pretty.
Import ListNotations.

Local Open Scope Z_scope.

(** ** Types of [utils/types] *)

(** Modelled from the spec: [SpreadingFactor], [Bandwidth] and [LoraMode] are
    declared in [utils/types], which this file only imports.  The component
    never inspects them (they are handed to [calculateAirtime] as they come),
    so they are numbers and a name. *)
Definition SpreadingFactor : Type := Z.
Definition Bandwidth : Type := Z.
Definition LoraMode : Type := string.

(** Modelled from the spec: [CodingRate] is "an enumerated value"; absent
    ([undefined]) is a valid state, written [None] where the component tests
    it. *)
Inductive CodingRate : Type := CR4_5 | CR4_6 | CR4_7 | CR4_8.

Definition CodingRate_eqb (a b : CodingRate) : bool :=
  match a, b with
  | CR4_5, CR4_5 | CR4_6, CR4_6 | CR4_7, CR4_7 | CR4_8, CR4_8 => true
  | _, _ => false
  end.

(** A [Region] is a JavaScript object.  The component never writes to it, so
    the object is its address together with its contents; [===] and [!==]
    look at the address only. *)
Record Region : Type := mkRegion {
  region_addr : positive;
  spreadingFactors : list SpreadingFactor;
  bandwidths : list Bandwidth;
  loraMode : LoraMode;
  maxMacPayloadSize : Z;
  maxDwellTime : option Z
}.

(** Equality of contents, whatever the address. *)
Definition Region_sameValue (a b : Region) : Prop :=
  spreadingFactors a = spreadingFactors b /\
  bandwidths a = bandwidths b /\
  loraMode a = loraMode b /\
  maxMacPayloadSize a = maxMacPayloadSize b /\
  maxDwellTime a = maxDwellTime b.

(** [a !== b] on two region objects. *)
Definition Region_neqb (a b : Region) : bool :=
  negb (Pos.eqb (region_addr a) (region_addr b)).

(** ** Catalog entries of [utils/datarates] *)

Inductive Highlight : Type := HighlightLow | HighlightHigh.

(** Modelled from the spec: the entries returned by [getDataRates].  The
    component reads [value], [color] and [highlight]; the glossary calls a
    data rate "a named combination of spreading factor and bandwidth", kept
    here as [dr_sf] and [dr_bw], which the component never reads. *)
Record DataRate : Type := mkDataRate {
  dr_value : Z;
  dr_color : string;
  dr_highlight : option Highlight;
  dr_sf : SpreadingFactor;
  dr_bw : Bandwidth
}.

(** ** Plot data *)

(** [visible?: boolean | 'legendonly'] *)
Inductive Visible : Type := VisibleBool (b : bool) | LegendOnly.

Record PlotData : Type := mkPlotData {
  pd_name : string;
  pd_x : list Z;
  pd_y : list R;
  pd_mode : string;
  pd_line_color : string;
  pd_line_width : Z;
  pd_hovertemplate : string;
  pd_visible : option Visible;
  pd_connectgaps : bool
}.

(** ** Layout *)

Inductive AxisType : Type := AxisLinear | AxisLog.

Record XAxis : Type := mkXAxis {
  xa_autorange : bool;
  xa_fixedrange : option bool;
  xa_range : option (list R);
  xa_title : string;
  xa_ticks : string
}.

Record YAxis : Type := mkYAxis {
  ya_type : option AxisType;
  ya_title : option string;
  ya_ticks : string;
  ya_autorange : bool;
  ya_fixedrange : bool;
  ya_rangemode : string;
  ya_separatethousands : bool
}.

Record Shape : Type := mkShape {
  sh_type : string;
  sh_x0 : R;
  sh_y0 : R;
  sh_x1 : R;
  sh_y1 : R;
  sh_xref : string;
  sh_opacity : R;
  sh_line_color : string;
  sh_line_width : Z;
  sh_line_dash : string
}.

Record Annotation : Type := mkAnnotation {
  an_text : string;
  an_x : R;
  an_xref : string;
  an_xanchor : string;
  an_y : R;
  an_yanchor : string;
  an_showarrow : bool;
  an_font_color : string;
  an_opacity : R
}.

Record Legend : Type := mkLegend {
  lg_orientation : string;
  lg_x : R;
  lg_y : R;
  lg_xanchor : string;
  lg_yanchor : string
}.

Record Layout : Type := mkLayout {
  autosize : bool;
  margin : Z * Z * Z;
  dragmode : string;
  xaxis : XAxis;
  yaxis : YAxis;
  legend : Legend;
  shapes : option (list Shape);
  annotations : option (list Annotation)
}.

(** The initial value of the [layout] state (Graph.tsx:31-55). *)
Definition initialLayout : Layout :=
  {| autosize := true;
     margin := (70, 0, 5);
     dragmode := "pan";
     xaxis := {| xa_autorange := false;
                 xa_fixedrange := None;
                 xa_range := Some [0%R; 100%R];
                 xa_title := "PHYPayload Size (bytes)";
                 xa_ticks := "outside" |};
     yaxis := {| ya_type := None;
                 ya_title := None;
                 ya_ticks := "outside";
                 ya_autorange := true;
                 ya_fixedrange := true;
                 ya_rangemode := "tozero";
                 ya_separatethousands := true |};
     legend := {| lg_orientation := "h";
                  lg_x := 0%R;
                  lg_y := (11 / 10)%R;
                  lg_xanchor := "left";
                  lg_yanchor := "bottom" |};
     shapes := None;
     annotations := None |}.

(** ** lodash [merge] on the partial layouts the effects build *)

Record XAxisPatch : Type := mkXAxisPatch {
  xp_autorange : bool;
  xp_fixedrange : bool;
  xp_range : list R
}.

Record YAxisPatch : Type := mkYAxisPatch {
  yp_type : AxisType;
  yp_title : string
}.

(** An annotation of a partial layout either spells every field out
    (Graph.tsx:152-167) or carries [y] alone (Graph.tsx:188-190). *)
Inductive AnnotationPatch : Type :=
  | AnnotationFull (a : Annotation)
  | AnnotationY (y : R).

Record LayoutPatch : Type := mkLayoutPatch {
  lp_xaxis : option XAxisPatch;
  lp_yaxis : option YAxisPatch;
  lp_shapes : option (list Shape);
  lp_annotations : option (list AnnotationPatch)
}.

(** [merge] walks two arrays by index: an index present in the source is
    merged into the destination's element at that index (or creates it), the
    destination's further elements stay. *)
Fixpoint mergeArray {A P : Type} (f : option A -> P -> A)
    (dst : list A) (src : list P) : list A :=
  match src with
  | [] => dst
  | s :: ss =>
      match dst with
      | [] => f None s :: mergeArray f [] ss
      | d :: ds => f (Some d) s :: mergeArray f ds ss
      end
  end.

(** A source property that is [undefined] is skipped. *)
Definition mergeOptArray {A P : Type} (f : option A -> P -> A)
    (dst : option (list A)) (src : option (list P)) : option (list A) :=
  match src with
  | None => dst
  | Some s => Some (mergeArray f (default [] dst) s)
  end.

Definition setAnnotationY (y : R) (a : Annotation) : Annotation :=
  {| an_text := an_text a; an_x := an_x a; an_xref := an_xref a;
     an_xanchor := an_xanchor a; an_y := y; an_yanchor := an_yanchor a;
     an_showarrow := an_showarrow a; an_font_color := an_font_color a;
     an_opacity := an_opacity a |}.

(** An annotation created from [{y}] alone has no other property; the blank
    fields stand for [undefined]. *)
Definition annotationOfY (y : R) : Annotation :=
  {| an_text := ""; an_x := 0%R; an_xref := ""; an_xanchor := "";
     an_y := y; an_yanchor := ""; an_showarrow := false;
     an_font_color := ""; an_opacity := 0%R |}.

Definition mergeAnnotation (d : option Annotation) (s : AnnotationPatch) : Annotation :=
  match s with
  | AnnotationFull a => a
  | AnnotationY y =>
      match d with
      | Some a => setAnnotationY y a
      | None => annotationOfY y
      end
  end.

Definition mergeXAxis (d : XAxis) (s : option XAxisPatch) : XAxis :=
  match s with
  | None => d
  | Some p =>
      {| xa_autorange := xp_autorange p;
         xa_fixedrange := Some (xp_fixedrange p);
         xa_range := mergeOptArray (fun _ v => v) (xa_range d) (Some (xp_range p));
         xa_title := xa_title d;
         xa_ticks := xa_ticks d |}
  end.

Definition mergeYAxis (d : YAxis) (s : option YAxisPatch) : YAxis :=
  match s with
  | None => d
  | Some p =>
      {| ya_type := Some (yp_type p);
         ya_title := Some (yp_title p);
         ya_ticks := ya_ticks d;
         ya_autorange := ya_autorange d;
         ya_fixedrange := ya_fixedrange d;
         ya_rangemode := ya_rangemode d;
         ya_separatethousands := ya_separatethousands d |}
  end.

Definition merge (current : Layout) (update : LayoutPatch) : Layout :=
  {| autosize := autosize current;
     margin := margin current;
     dragmode := dragmode current;
     xaxis := mergeXAxis (xaxis current) (lp_xaxis update);
     yaxis := mergeYAxis (yaxis current) (lp_yaxis update);
     legend := legend current;
     shapes := mergeOptArray (fun _ s => s) (shapes current) (lp_shapes update);
     annotations :=
       mergeOptArray mergeAnnotation (annotations current) (lp_annotations update) |}.

(** ** Component state *)

(** The five [useState] cells.  [layout] is a reference into [store], the
    layout objects allocated so far; a reader that was handed an earlier
    reference still reads the store through it. *)
Record GraphState : Type := mkGraphState {
  xAxisFitFullRange : bool;
  yAxisLogarithmic : bool;
  revision : Z;
  data : list PlotData;
  store : list Layout;
  layout : nat
}.

Definition initialState : GraphState :=
  {| xAxisFitFullRange := true;
     yAxisLogarithmic := false;
     revision := 0;
     data := [];
     store := [initialLayout];
     layout := 0%nat |}.

(** Reading a layout object through a reference. *)
Definition readLayout (st : GraphState) (ref : nat) : Layout :=
  default initialLayout (store st !! ref).

Definition currentLayout (st : GraphState) : Layout := readLayout st (layout st).

Definition setData (newData : list PlotData) (st : GraphState) : GraphState :=
  {| xAxisFitFullRange := xAxisFitFullRange st;
     yAxisLogarithmic := yAxisLogarithmic st;
     revision := revision st;
     data := newData;
     store := store st;
     layout := layout st |}.

Definition setRevision (f : Z -> Z) (st : GraphState) : GraphState :=
  {| xAxisFitFullRange := xAxisFitFullRange st;
     yAxisLogarithmic := yAxisLogarithmic st;
     revision := f (revision st);
     data := data st;
     store := store st;
     layout := layout st |}.

Definition setXAxisFitFullRange (b : bool) (st : GraphState) : GraphState :=
  {| xAxisFitFullRange := b;
     yAxisLogarithmic := yAxisLogarithmic st;
     revision := revision st;
     data := data st;
     store := store st;
     layout := layout st |}.

Definition setYAxisLogarithmic (b : bool) (st : GraphState) : GraphState :=
  {| xAxisFitFullRange := xAxisFitFullRange st;
     yAxisLogarithmic := b;
     revision := revision st;
     data := data st;
     store := store st;
     layout := layout st |}.

(** [setLayout] with a freshly built object: the object is allocated at the
    end of the store and the state refers to it. *)
Definition setLayoutNew (l : Layout) (st : GraphState) : GraphState :=
  {| xAxisFitFullRange := xAxisFitFullRange st;
     yAxisLogarithmic := yAxisLogarithmic st;
     revision := revision st;
     data := data st;
     store := store st ++ [l];
     layout := length (store st) |}.

(** An assignment to (or deletion from) the object the state refers to,
    returned as it is by the updater: same reference, contents overwritten. *)
Definition mutateLayout (f : Layout -> Layout) (st : GraphState) : GraphState :=
  {| xAxisFitFullRange := xAxisFitFullRange st;
     yAxisLogarithmic := yAxisLogarithmic st;
     revision := revision st;
     data := data st;
     store := <[layout st := f (currentLayout st)]> (store st);
     layout := layout st |}.

(** Modelled from the spec: [triggerRender] is not in the source file.  Every
    mutation "must increment the shared revision counter": one
    [setRevision((prev) => prev + 1)], as [updateGraph] does at
    Graph.tsx:109. *)
Definition triggerRender (st : GraphState) : GraphState :=
  setRevision (fun prev => prev + 1) st.

(** Modelled from the spec: [mergeAndTriggerRender] is not in the source
    file.  It is [setLayout((current) => mergeAndTriggerRender(current,
    update))] as a whole: the update is merged into a copy of the current
    layout ("every mutation produces a new snapshot"), the revision is
    incremented once, and the copy becomes the layout. *)
Definition mergeAndTriggerRender (update : Layout -> LayoutPatch)
    (st : GraphState) : GraphState :=
  let current := currentLayout st in
  setLayoutNew (merge current (update current)) (triggerRender st).

(** ** The logarithmic transform *)

Definition log10 (x : R) : R := (ln x / ln 10)%R.

(** Modelled from the spec: [toLogarithmic] is not in the source file.
    "If switching to logarithmic, replace the raw threshold value with its
    base-10 logarithm for display purposes; if switching to linear, use the
    raw (untransformed) value".  The vertical effect hands it the label's
    current coordinate (Graph.tsx:189), which after a logarithmic display is
    the logarithm, so the raw value is recovered as the power of ten; the
    creation of the label (Graph.tsx:158-160) calls it in the logarithmic
    direction only. *)
Definition toLogarithmic (logarithmic : bool) (y : R) : R :=
  if logarithmic then log10 y else Rpower 10 y.

(** ** Reactive effects *)

(** [useEffect(effect, deps)]: the effect runs after the first render, and
    after a later render when one of its dependencies differs from the
    previous render's. *)
Definition useEffect {D : Type} (changed : D -> D -> bool)
    (effect : D -> GraphState -> GraphState)
    (previous : option D) (deps : D) (st : GraphState) : GraphState :=
  match previous with
  | None => effect deps st
  | Some old => if changed old deps then effect deps st else st
  end.

(** [a !== b] where either side may be [undefined]. *)
Definition optRegion_neqb (a b : option Region) : bool :=
  match a, b with
  | Some x, Some y => Region_neqb x y
  | None, None => false
  | _, _ => true
  end.

Definition optCodingRate_neqb (a b : option CodingRate) : bool :=
  match a, b with
  | Some x, Some y => negb (CodingRate_eqb x y)
  | None, None => false
  | _, _ => true
  end.

(** A number used as a condition: [undefined] and [0] are falsy. *)
Definition truthy (n : option Z) : bool :=
  match n with
  | Some v => negb (v =? 0)
  | None => false
  end.

Section Graph.

(** The collaborators imported from [utils/calculator], [utils/datarates]
    and [utils/range]; their code is not part of this file. *)
Variable calculateAirtime :
  Z -> option SpreadingFactor -> option Bandwidth -> CodingRate -> LoraMode ->
  Z -> bool -> bool -> bool -> R.
Variable getDataRates : Region -> list DataRate.
Variable range : Z -> Z -> Z -> list Z.

Definition preambleLength : Z := 8.
Definition explicitHeader : bool := true.
Definition lowDataRateOptimize : bool := false.
Definition crc : bool := true.

(** Graph.tsx:76 *)
Definition resetVisibleTraces (codingRate : CodingRate)
    (prevCodingRate : option CodingRate)
    (region : Region) (prevRegion : option Region) : bool :=
  optCodingRate_neqb (Some codingRate) prevCodingRate
  || optRegion_neqb (Some region) prevRegion.

(** Graph.tsx:78 *)
Definition configured (dr : DataRate) : Visible :=
  match dr_highlight dr with
  | Some HighlightLow => LegendOnly
  | _ => VisibleBool true
  end.

(** The callback of [dataRates.map] (Graph.tsx:75-106). *)
Definition trace (currentData : list PlotData)
    (prevRegion : option Region) (prevCodingRate : option CodingRate)
    (region : Region) (codingRate : CodingRate)
    (spreadingFactor : option SpreadingFactor) (bandwidth : option Bandwidth)
    (loraMode : LoraMode) (overhead maxPayloadSize : Z)
    (idx : nat) (dr : DataRate) : PlotData :=
  let current := currentData !! idx ≫= pd_visible in
  let visible :=
    if resetVisibleTraces codingRate prevCodingRate region prevRegion
    then configured dr
    else default (configured dr) current in
  {| pd_name := "DR" +:+ pretty (dr_value dr);
     pd_x := range 0 maxPayloadSize 10;
     pd_y := map (fun x =>
               calculateAirtime (x + overhead) spreadingFactor bandwidth
                 codingRate loraMode preambleLength explicitHeader
                 lowDataRateOptimize crc)
             (range 0 maxPayloadSize 10);
     pd_mode := "lines";
     pd_line_color := dr_color dr;
     pd_line_width :=
       match dr_highlight dr with Some HighlightHigh => 3 | _ => 1 end;
     pd_hovertemplate := "PHYPayload: %{x}B<br>Airtime: %{y}ms";
     pd_visible := Some visible;
     pd_connectgaps := true |}.

(** Graph.tsx:62-113.  [prevRegion] and [prevCodingRate] are the values the
    callback closes over. *)
Definition updateGraph
    (prevRegion : option Region) (prevCodingRate : option CodingRate)
    (region : Region) (codingRate : CodingRate)
    (spreadingFactor : option SpreadingFactor) (bandwidth : option Bandwidth)
    (loraMode : LoraMode) (overhead maxPayloadSize : Z)
    (st : GraphState) : GraphState :=
  if 0 <? maxPayloadSize then
    let currentData := data st in
    let dataRates := getDataRates region in
    let newData :=
      imap (trace currentData prevRegion prevCodingRate region codingRate
              spreadingFactor bandwidth loraMode overhead maxPayloadSize)
           dataRates in
    setRevision (fun prev => prev + 1) (setData newData st)
  else st.

(** The partial layout of Graph.tsx:133-169. *)
Definition dwellOverlay (maxDwell : Z) (current : Layout) : LayoutPatch :=
  let color := "red" in
  {| lp_xaxis := None;
     lp_yaxis := None;
     lp_shapes := Some [
       {| sh_type := "line";
          sh_x0 := 0%R;
          sh_y0 := IZR maxDwell;
          sh_x1 := 1%R;
          sh_y1 := IZR maxDwell;
          sh_xref := "paper";
          sh_opacity := (2 / 10)%R;
          sh_line_color := color;
          sh_line_width := 2;
          sh_line_dash := "dashdot" |} ];
     lp_annotations := Some [
       AnnotationFull
         {| an_text := "max dwell time";
            an_x := 1%R;
            an_xref := "paper";
            an_xanchor := "right";
            an_y := match ya_type (yaxis current) with
                    | Some AxisLog => toLogarithmic true (IZR maxDwell)
                    | _ => IZR maxDwell
                    end;
            an_yanchor := "bottom";
            an_showarrow := false;
            an_font_color := color;
            an_opacity := (4 / 10)%R |} ] |}.

(** Graph.tsx:172-177: both properties are deleted from the current layout
    object, which is returned as it is. *)
Definition deleteOverlay (st : GraphState) : GraphState :=
  triggerRender
    (mutateLayout
       (fun current =>
          {| autosize := autosize current;
             margin := margin current;
             dragmode := dragmode current;
             xaxis := xaxis current;
             yaxis := yaxis current;
             legend := legend current;
             shapes := None;
             annotations := None |})
       st).

(** The body of the first effect (Graph.tsx:115-178). *)
Definition regionEffect (region : Region) (prevRegion : option Region)
    (codingRate prevCodingRate : option CodingRate)
    (st : GraphState) : GraphState :=
  match codingRate with
  | None => st
  | Some cr =>
      let st1 :=
        updateGraph prevRegion prevCodingRate region cr
          (head (spreadingFactors region)) (head (bandwidths region))
          (loraMode region) 5 (maxMacPayloadSize region + 5) st in
      if truthy (maxDwellTime region) then
        mergeAndTriggerRender
          (dwellOverlay (default 0 (maxDwellTime region))) st1
      else if truthy (prevRegion ≫= maxDwellTime) then
        deleteOverlay st1
      else st1
  end.

(** Its dependency list: [[region, prevRegion, codingRate,
    selectedPacketSize]]. *)
Record RegionDeps : Type := mkRegionDeps {
  d_region : Region;
  d_prevRegion : option Region;
  d_codingRate : option CodingRate;
  d_selectedPacketSize : Z
}.

Definition RegionDeps_changed (old new : RegionDeps) : bool :=
  Region_neqb (d_region old) (d_region new)
  || optRegion_neqb (d_prevRegion old) (d_prevRegion new)
  || optCodingRate_neqb (d_codingRate old) (d_codingRate new)
  || negb (d_selectedPacketSize old =? d_selectedPacketSize new).

Definition useRegionEffect (prevCodingRate : option CodingRate)
    (previous : option RegionDeps) (deps : RegionDeps)
    (st : GraphState) : GraphState :=
  useEffect RegionDeps_changed
    (fun d => regionEffect (d_region d) (d_prevRegion d) (d_codingRate d)
                prevCodingRate)
    previous deps st.

End Graph.

(** The body of the second effect (Graph.tsx:181-193). *)
Definition verticalEffect (yAxisLogarithmic : bool) (st : GraphState) : GraphState :=
  mergeAndTriggerRender
    (fun current =>
       {| lp_xaxis := None;
          lp_yaxis := Some
            {| yp_type := if yAxisLogarithmic then AxisLog else AxisLinear;
               yp_title := if yAxisLogarithmic
                           then "airtime (ms, logarithmic)"
                           else "airtime (ms)" |};
          lp_shapes := None;
          lp_annotations :=
            (map (fun annotation =>
                    AnnotationY (toLogarithmic yAxisLogarithmic (an_y annotation))))
            <$> annotations current |})
    st.

Definition useVerticalEffect (previous : option bool) (st : GraphState) : GraphState :=
  useEffect (fun a b => negb (Bool.eqb a b)) verticalEffect
    previous (yAxisLogarithmic st) st.

(** The body of the third effect (Graph.tsx:195-212). *)
Definition horizontalEffect (windowWidth : Z) (st : GraphState) : GraphState :=
  mergeAndTriggerRender
    (fun current =>
       let xaxisFixedScaleRange := [0%R; ((IZR windowWidth - 312) / 6)%R] in
       let xaxisRange :=
         if xAxisFitFullRange st
         then default xaxisFixedScaleRange (xa_range (xaxis current))
         else xaxisFixedScaleRange in
       {| lp_xaxis := Some
            {| xp_autorange := xAxisFitFullRange st;
               xp_fixedrange := xAxisFitFullRange st;
               xp_range := xaxisRange |};
          lp_yaxis := None;
          lp_shapes := None;
          lp_annotations := None |})
    st.

Definition useHorizontalEffect (previous : option (Z * bool)) (windowWidth : Z)
    (st : GraphState) : GraphState :=
  useEffect
    (fun a b => negb (fst a =? fst b) || negb (Bool.eqb (snd a) (snd b)))
    (fun d => horizontalEffect (fst d))
    previous (windowWidth, xAxisFitFullRange st) st.



(** ** What the properties speak about *)

(** A click in the legend writes the [visible] property of a series. *)
Definition setVisible (v : Visible) (t : PlotData) : PlotData :=
  {| pd_name := pd_name t; pd_x := pd_x t; pd_y := pd_y t;
     pd_mode := pd_mode t; pd_line_color := pd_line_color t;
     pd_line_width := pd_line_width t;
     pd_hovertemplate := pd_hovertemplate t;
     pd_visible := Some v; pd_connectgaps := pd_connectgaps t |}.

(** The coordinate at which a threshold is displayed, in the spec's words:
    its base-10 logarithm on a logarithmic axis, the raw value on a linear
    one. *)
Definition displayed (logarithmic : bool) (threshold : R) : R :=
  if logarithmic then log10 threshold else threshold.

(** The layout holds the dwell overlay of a threshold: one line at the raw
    threshold and one label at the coordinate displayed for it. *)
Definition overlayAt (logarithmic : bool) (threshold : R) (l : Layout) : Prop :=
  exists (line : Shape) (label : Annotation),
    shapes l = Some [line] /\
    sh_y0 line = threshold /\ sh_y1 line = threshold /\
    annotations l = Some [label] /\
    an_text label = "max dwell time" /\
    an_y label = displayed logarithmic threshold.

(** ** The mutations of the snapshot *)



Section Mutations.

Variable calculateAirtime :
  Z -> option SpreadingFactor -> option Bandwidth -> CodingRate -> LoraMode ->
  Z -> bool -> bool -> bool -> R.
Variable getDataRates : Region -> list DataRate.
Variable range : Z -> Z -> Z -> list Z.



End Mutations.

(** ** Concrete collaborators and inputs

    Stand-ins for the imported collaborators, used where a property is
    evaluated on a concrete input. *)
Module Sample.

(** Symbol time [2^SF / BW] times the number of symbols, taken as the
    preamble plus the payload: an airtime that grows with the payload and
    with the spreading factor. *)
Definition calculateAirtime (payloadSize : Z)
    (spreadingFactor : option SpreadingFactor) (bandwidth : option Bandwidth)
    (codingRate : CodingRate) (loraMode : LoraMode) (preamble : Z)
    (header ldro crcOn : bool) : R :=
  (IZR ((preamble + payloadSize) * 2 ^ default 0%Z spreadingFactor)%Z
   / IZR (default 1%Z bandwidth))%R.

Definition dr0 : DataRate :=
  {| dr_value := 0; dr_color := "#999"; dr_highlight := Some HighlightLow;
     dr_sf := 12; dr_bw := 125 |}.
Definition dr3 : DataRate :=
  {| dr_value := 3; dr_color := "#06c"; dr_highlight := None;
     dr_sf := 9; dr_bw := 125 |}.
Definition dr5 : DataRate :=
  {| dr_value := 5; dr_color := "#0a0"; dr_highlight := Some HighlightHigh;
     dr_sf := 7; dr_bw := 125 |}.

Definition getDataRates (region : Region) : list DataRate := [dr0; dr3; dr5].

(** Every [step]-th integer from [start] up to [stop]. *)
Definition range (start stop step : Z) : list Z :=
  map (fun i => start + i * step) (seqZ 0 ((stop - start) / step + 1)).

(** A region without a dwell-time limit. *)
Definition eu868 : Region :=
  {| region_addr := 1;
     spreadingFactors := [7; 8; 9; 10; 11; 12];
     bandwidths := [125; 250];
     loraMode := "lora";
     maxMacPayloadSize := 242;
     maxDwellTime := None |}.

(** A region whose dwell-time limit is 500 ms. *)
Definition as923 : Region :=
  {| region_addr := 2;
     spreadingFactors := [7; 8; 9; 10; 11; 12];
     bandwidths := [125; 250];
     loraMode := "lora";
     maxMacPayloadSize := 242;
     maxDwellTime := Some 500 |}.

(** Another object with the contents of [eu868]. *)
Definition eu868_copy : Region :=
  {| region_addr := 3;
     spreadingFactors := spreadingFactors eu868;
     bandwidths := bandwidths eu868;
     loraMode := loraMode eu868;
     maxMacPayloadSize := maxMacPayloadSize eu868;
     maxDwellTime := maxDwellTime eu868 |}.

Definition regionEffect :=
  regionEffect calculateAirtime getDataRates range.
Definition useRegionEffect :=
  useRegionEffect calculateAirtime getDataRates range.
Definition updateGraph :=
  updateGraph calculateAirtime getDataRates range.

(** The state after the component mounted with [eu868] and coding rate 4/5. *)
Definition mounted_eu868 : GraphState :=
  regionEffect eu868 None (Some CR4_5) None initialState.

(** The state after the component mounted with [as923] and coding rate 4/5:
    the dwell overlay exists, the vertical axis is linear. *)
Definition mounted_as923 : GraphState :=
  regionEffect as923 None (Some CR4_5) None initialState.

(** The user then showed the first series and hid the second one: the
    visibilities are visible, legend-only, visible. *)
Definition toggled_eu868 : GraphState :=
  setData
    (zip_with setVisible [VisibleBool true; LegendOnly; VisibleBool true]
       (data mounted_eu868))
    mounted_eu868.

(** The dependencies of the configuration effect in two renders that differ
    in the packet size only. *)
Definition deps_size20 : RegionDeps :=
  mkRegionDeps eu868 (Some eu868) (Some CR4_5) 20.
Definition deps_size30 : RegionDeps :=
  mkRegionDeps eu868 (Some eu868) (Some CR4_5) 30.

(** The region is switched from [as923] to [eu868]: the dwell time goes. *)
Definition left_as923 : GraphState :=
  regionEffect eu868 (Some as923) (Some CR4_5) (Some CR4_5) mounted_as923.

(** The region is switched from [eu868] to [as923]: the dwell time comes. *)
Definition entered_as923 : GraphState :=
  regionEffect as923 (Some eu868) (Some CR4_5) (Some CR4_5) mounted_eu868.


(** The horizontal axis in fixed-scale mode, before its effect ran. *)
Definition fixed_scale : GraphState := setXAxisFitFullRange false initialState.


End Sample.

(** ** Runs of the component *)

(** What happens to the state between two renders: one of the three effects
    runs, or a handler writes one of the two axis flags
    (Graph.tsx:27-28).  The vertical and the horizontal effect read their flag
    from the state of the render they run after. *)
Inductive Step : Type :=
  | RunRegionEffect (region : Region) (prevRegion : option Region)
      (codingRate prevCodingRate : option CodingRate)
  | RunVerticalEffect
  | RunHorizontalEffect (windowWidth : Z)
  | SetYAxisLogarithmic (b : bool)
  | SetXAxisFitFullRange (b : bool).

Section Runs.

Variable calculateAirtime :
  Z -> option SpreadingFactor -> option Bandwidth -> CodingRate -> LoraMode ->
  Z -> bool -> bool -> bool -> R.
Variable getDataRates : Region -> list DataRate.
Variable range : Z -> Z -> Z -> list Z.

Definition runStep (s : Step) (st : GraphState) : GraphState :=
  match s with
  | RunRegionEffect region prevRegion codingRate prevCodingRate =>
      regionEffect calculateAirtime getDataRates range region prevRegion
        codingRate prevCodingRate st
  | RunVerticalEffect => verticalEffect (yAxisLogarithmic st) st
  | RunHorizontalEffect windowWidth => horizontalEffect windowWidth st
  | SetYAxisLogarithmic b => setYAxisLogarithmic b st
  | SetXAxisFitFullRange b => setXAxisFitFullRange b st
  end.

Fixpoint run (steps : list Step) (st : GraphState) : GraphState :=
  match steps with
  | [] => st
  | s :: steps' => run steps' (runStep s st)
  end.

End Runs.

(** The overlay is absent altogether, or it is one horizontal line and one
    label. *)
Definition overlayShape (l : Layout) : Prop :=
  (shapes l = None /\ annotations l = None) \/
  (exists (line : Shape) (label : Annotation),
     shapes l = Some [line] /\ sh_y0 line = sh_y1 line /\
     annotations l = Some [label] /\ an_text label = "max dwell time").

(** A series as [updateGraph] builds them: as many y-values as x-values, a
    visibility, drawn as lines. *)
Definition seriesShape (t : PlotData) : Prop :=
  length (pd_y t) = length (pd_x t) /\
  is_Some (pd_visible t) /\
  pd_mode t = "lines".


Module SampleRun.

(** Mount with [as923]; switch to logarithmic; switch to [eu868]; switch to
    the fixed scale at width 970. *)
Definition steps : list Step :=
  [ RunRegionEffect Sample.as923 None (Some CR4_5) None;
    RunVerticalEffect;
    RunHorizontalEffect 970;
    SetYAxisLogarithmic true;
    RunVerticalEffect;
    RunRegionEffect Sample.eu868 (Some Sample.as923) (Some CR4_5) (Some CR4_5);
    SetXAxisFitFullRange false;
    RunHorizontalEffect 970 ].

Definition run : list Step -> GraphState -> GraphState :=
  run Sample.calculateAirtime Sample.getDataRates Sample.range.

End SampleRun.

(** * Properties *)

(** ** The logarithmic transform over the reals *)

Section Logarithm.

Local Open Scope R_scope.

Lemma ln_10_pos : 0 < ln 10.
Proof. rewrite <- ln_1. apply ln_increasing; lra. Qed.





Lemma toLogarithmic_true_false (y : R) :
  toLogarithmic true (toLogarithmic false y) = y.
Proof.
  unfold toLogarithmic, Rpower, log10. rewrite ln_exp.
  pose proof ln_10_pos. field. lra.
Qed.

End Logarithm.

(** ** Reading the state after a setter *)

Lemma readLayout_setLayoutNew (l : Layout) (st : GraphState) :
  currentLayout (setLayoutNew l st) = l.
Proof.
  unfold currentLayout, readLayout, setLayoutNew; simpl.
  now rewrite list_lookup_middle.
Qed.

Lemma readLayout_setLayoutNew_old (l : Layout) (st : GraphState) (ref : nat) :
  (ref < length (store st))%nat ->
  readLayout (setLayoutNew l st) ref = readLayout st ref.
Proof.
  intros Hlt. unfold readLayout, setLayoutNew; simpl.
  now rewrite lookup_app_l.
Qed.

Lemma currentLayout_mergeAndTriggerRender (update : Layout -> LayoutPatch)
    (st : GraphState) :
  currentLayout (mergeAndTriggerRender update st)
  = merge (currentLayout st) (update (currentLayout st)).
Proof. unfold mergeAndTriggerRender. now rewrite readLayout_setLayoutNew. Qed.

Lemma revision_mergeAndTriggerRender (update : Layout -> LayoutPatch)
    (st : GraphState) :
  revision (mergeAndTriggerRender update st) = revision st + 1.
Proof. reflexivity. Qed.

Lemma revision_deleteOverlay (st : GraphState) :
  revision (deleteOverlay st) = revision st + 1.
Proof. reflexivity. Qed.

Lemma currentLayout_mutateLayout (f : Layout -> Layout) (st : GraphState) :
  (layout st < length (store st))%nat ->
  currentLayout (mutateLayout f st) = f (currentLayout st).
Proof.
  intros Hlt. unfold currentLayout at 1, readLayout, mutateLayout; simpl.
  now rewrite list_lookup_insert_eq.
Qed.

Section GraphFacts.

Variable calculateAirtime :
  Z -> option SpreadingFactor -> option Bandwidth -> CodingRate -> LoraMode ->
  Z -> bool -> bool -> bool -> R.
Variable getDataRates : Region -> list DataRate.
Variable range : Z -> Z -> Z -> list Z.

Lemma updateGraph_accepted prevRegion prevCodingRate region codingRate
    spreadingFactor bandwidth loraMode overhead maxPayloadSize st :
  0 < maxPayloadSize ->
  updateGraph calculateAirtime getDataRates range
    prevRegion prevCodingRate region codingRate spreadingFactor bandwidth loraMode
    overhead maxPayloadSize st
  = setRevision (fun prev => prev + 1)
      (setData
         (imap (trace calculateAirtime range (data st) prevRegion prevCodingRate
                  region codingRate spreadingFactor bandwidth loraMode overhead
                  maxPayloadSize)
               (getDataRates region))
         st).
Proof.
  intros Hpos. unfold updateGraph.
  destruct (Z.ltb_spec 0 maxPayloadSize); [reflexivity | lia].
Qed.

Lemma updateGraph_layout prevRegion prevCodingRate region codingRate
    spreadingFactor bandwidth loraMode overhead maxPayloadSize st :
  let st' := updateGraph calculateAirtime getDataRates range
               prevRegion prevCodingRate region codingRate spreadingFactor bandwidth
               loraMode overhead maxPayloadSize st in
  store st' = store st /\ layout st' = layout st.
Proof.
  unfold updateGraph. now destruct (0 <? maxPayloadSize).
Qed.

Lemma updateGraph_currentLayout prevRegion prevCodingRate region codingRate
    spreadingFactor bandwidth loraMode overhead maxPayloadSize st :
  currentLayout (updateGraph calculateAirtime getDataRates range
                   prevRegion prevCodingRate region codingRate spreadingFactor
                   bandwidth loraMode overhead maxPayloadSize st)
  = currentLayout st.
Proof.
  unfold updateGraph. now destruct (0 <? maxPayloadSize).
Qed.

(** ** Series recomputation *)

(** C9: a call of the curve recomputation with [maxPayloadSize <= 0] is a
    no-op.  The call returns (the function is total, nothing is raised) and
    the state it returns is the state it was given: no series is produced,
    [data] and [revision] are the previous ones. *)
Theorem updateGraph_nonpositive_noop prevRegion prevCodingRate region codingRate
    spreadingFactor bandwidth loraMode overhead maxPayloadSize st :
  maxPayloadSize <= 0 ->
  updateGraph calculateAirtime getDataRates range
    prevRegion prevCodingRate region codingRate spreadingFactor bandwidth loraMode
    overhead maxPayloadSize st = st.
Proof.
  intros Hle. unfold updateGraph.
  destruct (Z.ltb_spec 0 maxPayloadSize); [lia | reflexivity].
Qed.

Lemma updateGraph_lookup prevRegion prevCodingRate region codingRate
    spreadingFactor bandwidth loraMode overhead maxPayloadSize st (i : nat) :
  0 < maxPayloadSize ->
  data (updateGraph calculateAirtime getDataRates range
          prevRegion prevCodingRate region codingRate spreadingFactor bandwidth
          loraMode overhead maxPayloadSize st) !! i
  = trace calculateAirtime range (data st) prevRegion prevCodingRate region codingRate
      spreadingFactor bandwidth loraMode overhead maxPayloadSize i
    <$> getDataRates region !! i.
Proof.
  intros Hpos. rewrite updateGraph_accepted by exact Hpos. simpl.
  apply list_lookup_imap.
Qed.

Lemma updateGraph_length prevRegion prevCodingRate region codingRate
    spreadingFactor bandwidth loraMode overhead maxPayloadSize st :
  0 < maxPayloadSize ->
  length (data (updateGraph calculateAirtime getDataRates range
                  prevRegion prevCodingRate region codingRate spreadingFactor
                  bandwidth loraMode overhead maxPayloadSize st))
  = length (getDataRates region).
Proof.
  intros Hpos. rewrite updateGraph_accepted by exact Hpos. simpl.
  apply length_imap.
Qed.


Lemma optCodingRate_neqb_true (a b : option CodingRate) :
  optCodingRate_neqb a b = true <-> a <> b.
Proof.
  destruct a as [[]|], b as [[]|]; simpl; split; intros H;
    try congruence; try discriminate; try (exfalso; now apply H).
Qed.

Lemma optRegion_neqb_true (a b : option Region) :
  optRegion_neqb a b = true <-> region_addr <$> a <> region_addr <$> b.
Proof.
  destruct a as [x|], b as [y|]; simpl; unfold Region_neqb;
    try (split; [intros _; discriminate | reflexivity]);
    try (split; [discriminate | intros H; now exfalso]).
  rewrite negb_true_iff. split.
  - intros Hne Heq. injection Heq as Heq.
    rewrite Heq, Pos.eqb_refl in Hne. discriminate.
  - intros Hne. apply Pos.eqb_neq. intros Heq. apply Hne. now rewrite Heq.
Qed.

(** C4, as the code has it: the reset trigger is true if and only if the
    coding rate differs from the previous one or the region is another object
    than the previous region (the regions are compared by reference, their
    contents are not looked at); and when it is true every series gets its
    configured default, legend-only for the highlight [low] and visible
    otherwise, whatever the previous series' visibility was. *)
Theorem resetVisibleTraces_by_reference prevRegion prevCodingRate region
    codingRate spreadingFactor bandwidth loraMode overhead maxPayloadSize st :
  (resetVisibleTraces codingRate prevCodingRate region prevRegion = true <->
   Some codingRate <> prevCodingRate \/
   Some (region_addr region) <> region_addr <$> prevRegion) /\
  (resetVisibleTraces codingRate prevCodingRate region prevRegion = true ->
   0 < maxPayloadSize ->
   forall (i : nat) (dr : DataRate),
     getDataRates region !! i = Some dr ->
     data (updateGraph calculateAirtime getDataRates range
             prevRegion prevCodingRate region codingRate spreadingFactor bandwidth
             loraMode overhead maxPayloadSize st) !! i
       ≫= pd_visible
     = Some match dr_highlight dr with
            | Some HighlightLow => LegendOnly
            | _ => VisibleBool true
            end).
Proof.
  split.
  - unfold resetVisibleTraces. rewrite orb_true_iff.
    rewrite optCodingRate_neqb_true, optRegion_neqb_true. reflexivity.
  - intros Hreset Hpos i dr Hdr.
    rewrite updateGraph_lookup by exact Hpos. rewrite Hdr. simpl.
    now rewrite Hreset.
Qed.

(** C3, as the code has it: a recomputation produces exactly one series per
    data rate of the region's catalog, named after it and in catalog order;
    every series carries the same curve, computed from the one spreading
    factor and the one bandwidth the recomputation was called with, whatever
    the data rate. *)
Theorem updateGraph_one_curve_for_all prevRegion prevCodingRate region
    codingRate spreadingFactor bandwidth loraMode overhead maxPayloadSize st :
  0 < maxPayloadSize ->
  let st' := updateGraph calculateAirtime getDataRates range
               prevRegion prevCodingRate region codingRate spreadingFactor bandwidth
               loraMode overhead maxPayloadSize st in
  length (data st') = length (getDataRates region) /\
  pd_name <$> data st'
  = (fun dr => "DR" +:+ pretty (dr_value dr)) <$> getDataRates region /\
  forall t : PlotData, t ∈ data st' ->
    pd_x t = range 0 maxPayloadSize 10 /\
    pd_y t = map (fun x =>
                    calculateAirtime (x + overhead) spreadingFactor bandwidth
                      codingRate loraMode 8 true false true)
                 (range 0 maxPayloadSize 10).
Proof.
  intros Hpos st'. split; [now apply updateGraph_length|]. unfold st'.
  rewrite updateGraph_accepted by exact Hpos. simpl. split.
  - rewrite fmap_imap. apply imap_const.
  - intros t Ht. apply elem_of_lookup_imap_1 in Ht as (i & dr & -> & _).
    split; reflexivity.
Qed.

End GraphFacts.

(** ** The configuration effect *)

Section ConfigurationEffect.

Variable calculateAirtime :
  Z -> option SpreadingFactor -> option Bandwidth -> CodingRate -> LoraMode ->
  Z -> bool -> bool -> bool -> R.
Variable getDataRates : Region -> list DataRate.
Variable range : Z -> Z -> Z -> list Z.

Lemma resetVisibleTraces_same (region : Region) (codingRate : CodingRate) :
  resetVisibleTraces codingRate (Some codingRate) region (Some region) = false.
Proof.
  unfold resetVisibleTraces, optRegion_neqb, optCodingRate_neqb, Region_neqb.
  rewrite Pos.eqb_refl. now destruct codingRate.
Qed.

Lemma RegionDeps_changed_packet_size (region : Region) (prevRegion : option Region)
    (codingRate : option CodingRate) (size size' : Z) :
  size <> size' ->
  RegionDeps_changed (mkRegionDeps region prevRegion codingRate size)
    (mkRegionDeps region prevRegion codingRate size') = true.
Proof.
  intros Hne. unfold RegionDeps_changed; simpl.
  apply orb_true_iff. right. apply negb_true_iff. now apply Z.eqb_neq.
Qed.

(** The revision after the configuration effect: one increment for the
    series, one more when the overlay is written or deleted. *)
Lemma revision_regionEffect region prevRegion codingRate prevCodingRate st :
  0 < maxMacPayloadSize region + 5 ->
  revision (regionEffect calculateAirtime getDataRates range
              region prevRegion (Some codingRate) prevCodingRate st)
  = revision st + 1
    + (if truthy (maxDwellTime region) || truthy (prevRegion ≫= maxDwellTime)
       then 1 else 0).
Proof.
  intros Hpos. unfold regionEffect.
  destruct (truthy (maxDwellTime region)).
  - rewrite revision_mergeAndTriggerRender.
    rewrite updateGraph_accepted by exact Hpos. reflexivity.
  - destruct (truthy (prevRegion ≫= maxDwellTime)).
    + rewrite revision_deleteOverlay.
      rewrite updateGraph_accepted by exact Hpos. reflexivity.
    + rewrite updateGraph_accepted by exact Hpos. simpl. lia.
Qed.

Lemma data_regionEffect region prevRegion codingRate prevCodingRate st :
  data (regionEffect calculateAirtime getDataRates range
          region prevRegion (Some codingRate) prevCodingRate st)
  = data (updateGraph calculateAirtime getDataRates range
            prevRegion prevCodingRate region codingRate (head (spreadingFactors
            region)) (head (bandwidths region)) (loraMode region) 5
            (maxMacPayloadSize region + 5) st).
Proof.
  unfold regionEffect.
  destruct (truthy (maxDwellTime region)); [reflexivity|].
  now destruct (truthy (prevRegion ≫= maxDwellTime)).
Qed.

(** C2, as the code has it: the packet size is a dependency of the
    configuration effect, so a change of the packet size alone runs the
    effect again.  The series are rebuilt: each keeps its visibility, and the
    rebuilt list equals the previous one when that was computed for the same
    region and coding rate (with whatever visibilities the user chose since);
    the revision counter is increased, by one for the series and by one more
    when the region has a dwell time and the overlay is written again. *)
Theorem packet_size_change_reruns (region : Region) (codingRate : CodingRate)
    (size size' : Z) (st : GraphState) :
  size <> size' ->
  0 < maxMacPayloadSize region + 5 ->
  let previous := mkRegionDeps region (Some region) (Some codingRate) size in
  let deps := mkRegionDeps region (Some region) (Some codingRate) size' in
  let st' := useRegionEffect calculateAirtime getDataRates range
               (Some codingRate) (Some previous) deps st in
  st' = regionEffect calculateAirtime getDataRates range
          region (Some region) (Some codingRate) (Some codingRate) st /\
  revision st'
  = revision st + 1 + (if truthy (maxDwellTime region) then 1 else 0) /\
  (forall (i : nat) (dr : DataRate),
     getDataRates region !! i = Some dr ->
     data st' !! i ≫= pd_visible
     = Some (default (configured dr) (data st !! i ≫= pd_visible))) /\
  (forall (data0 : list PlotData) (prevRegion0 : option Region)
          (prevCodingRate0 : option CodingRate) (chosen : list Visible),
     length chosen = length (getDataRates region) ->
     data st
     = zip_with setVisible chosen
         (imap (trace calculateAirtime range data0 prevRegion0 prevCodingRate0
                  region codingRate
                  (head (spreadingFactors region)) (head (bandwidths region))
                  (loraMode region) 5 (maxMacPayloadSize region + 5))
               (getDataRates region)) ->
     data st' = data st).
Proof.
  intros Hne Hpos previous deps st'.
  assert (Hrun : st' = regionEffect calculateAirtime getDataRates range
                         region (Some region) (Some codingRate) (Some codingRate) st).
  { unfold st', useRegionEffect, useEffect, previous, deps.
    now rewrite RegionDeps_changed_packet_size. }
  split; [exact Hrun|]. rewrite Hrun. split; [|split].
  - rewrite revision_regionEffect by exact Hpos. simpl.
    now destruct (truthy (maxDwellTime region)).
  - intros i dr Hdr. rewrite data_regionEffect.
    rewrite updateGraph_lookup by exact Hpos. rewrite Hdr. simpl.
    now rewrite resetVisibleTraces_same.
  - intros data0 prevRegion0 prevCodingRate0 chosen Hlen Hdata.
    rewrite data_regionEffect. apply list_eq. intros i.
    rewrite updateGraph_lookup by exact Hpos.
    rewrite Hdata at 2. rewrite lookup_zip_with, list_lookup_imap.
    destruct (getDataRates region !! i) as [dr|] eqn:Hdr; simpl.
    + assert (Hi : (i < length chosen)%nat).
      { rewrite Hlen. now apply lookup_lt_Some with dr. }
      apply lookup_lt_is_Some in Hi as [v Hv]. rewrite Hv. simpl.
      unfold trace, setVisible; simpl.
      rewrite resetVisibleTraces_same.
      rewrite Hdata, lookup_zip_with, list_lookup_imap, Hv, Hdr. reflexivity.
    + now destruct (chosen !! i).
Qed.

(** C6, as the code has it: when a coding rate is set and the new region has
    a (non-zero) dwell time, the current layout after the effect holds the
    reference line at that threshold and the label, at the threshold or, on a
    logarithmic axis, at its logarithm; when the new region has none and the
    previous one had one, [shapes] and [annotations] are both absent from the
    current layout.  That removal is made in place: the state refers to the
    same layout object as before, and it is this object that has lost both
    properties. *)
Theorem regionEffect_overlay (region : Region) (prevRegion : option Region)
    (codingRate : CodingRate) (prevCodingRate : option CodingRate)
    (st : GraphState) :
  let st' := regionEffect calculateAirtime getDataRates range
               region prevRegion (Some codingRate) prevCodingRate st in
  (forall threshold : Z,
     maxDwellTime region = Some threshold -> threshold <> 0 ->
     exists (line : Shape) (label : Annotation) (ss : list Shape)
            (aa : list Annotation),
       shapes (currentLayout st') = Some (line :: ss) /\
       sh_type line = "line" /\
       sh_y0 line = IZR threshold /\ sh_y1 line = IZR threshold /\
       annotations (currentLayout st') = Some (label :: aa) /\
       an_text label = "max dwell time" /\
       an_y label = displayed
                      (match ya_type (yaxis (currentLayout st)) with
                       | Some AxisLog => true
                       | _ => false
                       end)
                      (IZR threshold)) /\
  (truthy (maxDwellTime region) = false ->
   truthy (prevRegion ≫= maxDwellTime) = true ->
   shapes (currentLayout st') = None /\
   annotations (currentLayout st') = None /\
   layout st' = layout st /\
   shapes (readLayout st' (layout st)) = None /\
   annotations (readLayout st' (layout st)) = None).
Proof.
  intros st'. split.
  - intros threshold Hdwell Hnz. unfold st', regionEffect.
    rewrite Hdwell. simpl.
    destruct (Z.eqb_spec threshold 0) as [|_]; [contradiction|]. simpl.
    rewrite currentLayout_mergeAndTriggerRender, updateGraph_currentLayout.
    unfold merge, dwellOverlay; simpl.
    destruct (shapes (currentLayout st)) as [[|s ss]|];
      destruct (annotations (currentLayout st)) as [[|a aa]|]; simpl;
      repeat eexists;
      destruct (ya_type (yaxis (currentLayout st))) as [[]|]; reflexivity.
  - intros Hnow Hprev. unfold st', regionEffect. rewrite Hnow, Hprev.
    set (st1 := updateGraph calculateAirtime getDataRates range _ _ _ _ _ _ _ _ _ st).
    assert (Hst1 : store st1 = store st /\ layout st1 = layout st)
      by apply updateGraph_layout.
    destruct Hst1 as [Hstore Hlayout].
    assert (Hread : shapes (readLayout (deleteOverlay st1) (layout st)) = None /\
                    annotations (readLayout (deleteOverlay st1) (layout st)) = None).
    { unfold readLayout, deleteOverlay, mutateLayout; simpl.
      rewrite Hlayout.
      destruct (decide (layout st < length (store st1))%nat) as [Hlt|Hge].
      - rewrite list_lookup_insert_eq by exact Hlt. now split.
      - rewrite list_insert_ge by lia.
        rewrite (proj2 (lookup_ge_None (store st1) (layout st))) by lia.
        now split. }
    destruct Hread as [Hs Ha].
    assert (Hl : layout (deleteOverlay st1) = layout st) by exact Hlayout.
    unfold currentLayout. rewrite Hl. now repeat split.
Qed.

End ConfigurationEffect.

(** ** The revision counter *)

Section Revision.

Variable calculateAirtime :
  Z -> option SpreadingFactor -> option Bandwidth -> CodingRate -> LoraMode ->
  Z -> bool -> bool -> bool -> R.
Variable getDataRates : Region -> list DataRate.
Variable range : Z -> Z -> Z -> list Z.






End Revision.

(** ** The vertical axis *)

Lemma mergeArray_annotation_y (g : Annotation -> R) (l : list Annotation) :
  mergeArray mergeAnnotation l (map (fun a => AnnotationY (g a)) l)
  = map (fun a => setAnnotationY (g a) a) l.
Proof.
  induction l as [|a l IH]; simpl; [reflexivity|]. now rewrite IH.
Qed.

(** On a flip, the lines are left as they are and every label is moved to
    [toLogarithmic] of its coordinate. *)
Lemma verticalEffect_layout (logarithmic : bool) (st : GraphState) :
  let st' := verticalEffect logarithmic st in
  shapes (currentLayout st') = shapes (currentLayout st) /\
  annotations (currentLayout st')
  = map (fun a => setAnnotationY (toLogarithmic logarithmic (an_y a)) a)
      <$> annotations (currentLayout st) /\
  ya_type (yaxis (currentLayout st'))
  = Some (if logarithmic then AxisLog else AxisLinear).
Proof.
  intros st'. unfold st', verticalEffect.
  rewrite currentLayout_mergeAndTriggerRender. unfold merge; simpl.
  split; [reflexivity|]. split; [|reflexivity].
  destruct (annotations (currentLayout st)) as [l|]; simpl; [|reflexivity].
  now rewrite mergeArray_annotation_y.
Qed.


(** ** The horizontal axis *)

(** C10: in fixed-scale mode the horizontal effect sets the range to
    [[0, (windowWidth - 312) / 6]] whatever the viewport width; the effect
    runs again whenever the width differs from the previous render's; at
    width 970 the range is [[0, 329/3]], that is [[0, 109.666...]]. *)
Theorem fixed_scale_range (windowWidth : Z) (st : GraphState) :
  xAxisFitFullRange st = false ->
  (length (default [] (xa_range (xaxis (currentLayout st)))) <= 2)%nat ->
  xa_range (xaxis (currentLayout (horizontalEffect windowWidth st)))
  = Some [0%R; ((IZR windowWidth - 312) / 6)%R] /\
  (forall previousWidth : Z,
     previousWidth <> windowWidth ->
     useHorizontalEffect (Some (previousWidth, false)) windowWidth st
     = horizontalEffect windowWidth st) /\
  (windowWidth = 970 ->
   xa_range (xaxis (currentLayout (horizontalEffect windowWidth st)))
   = Some [0%R; (329 / 3)%R]).
Proof.
  intros Hfixed Hlen.
  assert (Hrange :
    xa_range (xaxis (currentLayout (horizontalEffect windowWidth st)))
    = Some [0%R; ((IZR windowWidth - 312) / 6)%R]).
  { unfold horizontalEffect.
    rewrite currentLayout_mergeAndTriggerRender, Hfixed.
    unfold merge, mergeXAxis, mergeOptArray; simpl.
    destruct (xa_range (xaxis (currentLayout st))) as [[|a [|b [|c r]]]|];
      simpl in *; try reflexivity. lia. }
  split; [exact Hrange|]. split.
  - intros previousWidth Hne.
    unfold useHorizontalEffect, useEffect; simpl.
    destruct (Z.eqb_spec previousWidth windowWidth); [contradiction|].
    reflexivity.
  - intros ->. rewrite Hrange. do 3 f_equal. lra.
Qed.

(** * The properties on concrete inputs *)

(** C2, counterexample: between two renders that differ in the packet size
    only, the effect runs and the revision counter goes from 1 to 2. *)
Lemma packet_size_change_bumps_revision :
  RegionDeps_changed Sample.deps_size20 Sample.deps_size30 = true /\
  revision Sample.mounted_eu868 = 1 /\
  revision (Sample.useRegionEffect (Some CR4_5) (Some Sample.deps_size20)
              Sample.deps_size30 Sample.mounted_eu868) = 2.
Proof. repeat split. Qed.

(** C2 on [eu868] after the user chose visibilities: the packet size goes
    from 20 to 30 and the rebuilt series are the previous ones. *)
Lemma packet_size_change_reruns_witness :
  20 <> 30 /\
  0 < maxMacPayloadSize Sample.eu868 + 5 /\
  data (Sample.useRegionEffect (Some CR4_5) (Some Sample.deps_size20)
          Sample.deps_size30 Sample.toggled_eu868)
  = data Sample.toggled_eu868.
Proof.
  assert (H1 : 20 <> 30) by lia.
  assert (H2 : 0 < maxMacPayloadSize Sample.eu868 + 5) by (simpl; lia).
  split; [exact H1|]. split; [exact H2|].
  destruct (packet_size_change_reruns Sample.calculateAirtime
              Sample.getDataRates Sample.range Sample.eu868 CR4_5 20 30
              Sample.toggled_eu868 H1 H2) as (_ & _ & _ & Hsame).
  apply (Hsame [] None None [VisibleBool true; LegendOnly; VisibleBool true]);
    reflexivity.
Defined.

(** C3, counterexample: the catalog's first and third data rates have
    different spreading factors (12 and 7), and their series carry the same
    y-values. *)
Lemma different_rates_same_curve :
  Sample.getDataRates Sample.eu868 !! 0%nat = Some Sample.dr0 /\
  Sample.getDataRates Sample.eu868 !! 2%nat = Some Sample.dr5 /\
  dr_sf Sample.dr0 <> dr_sf Sample.dr5 /\
  pd_name <$> data Sample.mounted_eu868 !! 0%nat = Some "DR0" /\
  pd_name <$> data Sample.mounted_eu868 !! 2%nat = Some "DR5" /\
  pd_y <$> data Sample.mounted_eu868 !! 0%nat
  = pd_y <$> data Sample.mounted_eu868 !! 2%nat.
Proof. repeat split. simpl. lia. Qed.

(** C3 on [eu868]: the series are named after the catalog, in its order. *)
Lemma updateGraph_one_curve_for_all_witness :
  0 < 247 /\
  pd_name <$> data (Sample.updateGraph None None Sample.eu868 CR4_5 (Some 7)
                      (Some 125) "lora" 5 247 initialState)
  = ["DR0"; "DR3"; "DR5"].
Proof.
  assert (H : 0 < 247) by lia. split; [exact H|].
  destruct (updateGraph_one_curve_for_all Sample.calculateAirtime
              Sample.getDataRates Sample.range None None Sample.eu868 CR4_5
              (Some 7) (Some 125) "lora" 5 247 initialState H)
    as (_ & Hnames & _).
  exact Hnames.
Defined.

(** C4, counterexample: the region is another object with the same contents
    as the previous one and the coding rate is the same, yet the reset is
    triggered and the first series, which the user had made visible, is back
    to legend-only. *)
Lemma equal_regions_still_reset :
  Region_sameValue Sample.eu868_copy Sample.eu868 /\
  resetVisibleTraces CR4_5 (Some CR4_5) Sample.eu868_copy (Some Sample.eu868)
  = true /\
  data Sample.toggled_eu868 !! 0%nat ≫= pd_visible = Some (VisibleBool true) /\
  data (Sample.updateGraph (Some Sample.eu868) (Some CR4_5) Sample.eu868_copy
          CR4_5 (Some 7) (Some 125) "lora" 5 247 Sample.toggled_eu868) !! 0%nat
    ≫= pd_visible
  = Some LegendOnly.
Proof. repeat split. Qed.

(** C4 on a change of the coding rate: the second series, which the user had
    hidden, is visible again. *)
Lemma resetVisibleTraces_by_reference_witness :
  resetVisibleTraces CR4_5 (Some CR4_6) Sample.eu868 (Some Sample.eu868) = true /\
  0 < 247 /\
  Sample.getDataRates Sample.eu868 !! 1%nat = Some Sample.dr3 /\
  data (Sample.updateGraph (Some Sample.eu868) (Some CR4_6) Sample.eu868
          CR4_5 (Some 7) (Some 125) "lora" 5 247 Sample.toggled_eu868) !! 1%nat
    ≫= pd_visible
  = Some (VisibleBool true).
Proof.
  assert (H1 : resetVisibleTraces CR4_5 (Some CR4_6) Sample.eu868
                 (Some Sample.eu868) = true) by reflexivity.
  assert (H2 : 0 < 247) by lia.
  assert (H3 : Sample.getDataRates Sample.eu868 !! 1%nat = Some Sample.dr3)
    by reflexivity.
  split; [exact H1|]. split; [exact H2|]. split; [exact H3|].
  exact (proj2 (resetVisibleTraces_by_reference Sample.calculateAirtime
                  Sample.getDataRates Sample.range (Some Sample.eu868)
                  (Some CR4_6) Sample.eu868 CR4_5 (Some 7) (Some 125) "lora"
                  5 247 Sample.toggled_eu868)
           H1 H2 1%nat Sample.dr3 H3).
Defined.


(** C9 with an empty payload range. *)
Lemma updateGraph_nonpositive_noop_witness :
  0 <= 0 /\
  Sample.updateGraph (Some Sample.eu868) (Some CR4_5) Sample.eu868 CR4_5
    (Some 7) (Some 125) "lora" 5 0 Sample.toggled_eu868
  = Sample.toggled_eu868.
Proof.
  assert (H : 0 <= 0) by lia. split; [exact H|].
  exact (updateGraph_nonpositive_noop Sample.calculateAirtime
           Sample.getDataRates Sample.range (Some Sample.eu868) (Some CR4_5)
           Sample.eu868 CR4_5 (Some 7) (Some 125) "lora" 5 0
           Sample.toggled_eu868 H).
Defined.

(** C6, counterexample: when the region is switched from one with a dwell
    time to one without, the state still refers to the layout object it
    referred to before, no object was allocated, and that object, which held
    the overlay, has lost it. *)
Lemma overlay_removed_in_place :
  layout Sample.left_as923 = layout Sample.mounted_as923 /\
  length (store Sample.left_as923) = length (store Sample.mounted_as923) /\
  is_Some (shapes (readLayout Sample.mounted_as923 (layout Sample.mounted_as923))) /\
  shapes (readLayout Sample.left_as923 (layout Sample.mounted_as923)) = None /\
  readLayout Sample.left_as923 (layout Sample.mounted_as923)
  <> readLayout Sample.mounted_as923 (layout Sample.mounted_as923).
Proof.
  split; [reflexivity|]. split; [reflexivity|].
  split; [eexists; reflexivity|]. split; [reflexivity|].
  intros Heq. apply (f_equal shapes) in Heq. discriminate Heq.
Qed.

(** C6 on the switch from [eu868] to [as923] and back. *)
Lemma regionEffect_overlay_witness :
  maxDwellTime Sample.as923 = Some 500 /\
  500 <> 0 /\
  truthy (maxDwellTime Sample.eu868) = false /\
  truthy (Some Sample.as923 ≫= maxDwellTime) = true /\
  (exists (line : Shape) (label : Annotation) (ss : list Shape)
          (aa : list Annotation),
     shapes (currentLayout Sample.entered_as923) = Some (line :: ss) /\
     sh_y0 line = 500%R /\
     annotations (currentLayout Sample.entered_as923) = Some (label :: aa) /\
     an_y label = 500%R) /\
  shapes (currentLayout Sample.left_as923) = None /\
  annotations (currentLayout Sample.left_as923) = None.
Proof.
  assert (H1 : maxDwellTime Sample.as923 = Some 500) by reflexivity.
  assert (H2 : 500 <> 0) by lia.
  assert (H3 : truthy (maxDwellTime Sample.eu868) = false) by reflexivity.
  assert (H4 : truthy (Some Sample.as923 ≫= maxDwellTime) = true) by reflexivity.
  split; [exact H1|]. split; [exact H2|]. split; [exact H3|].
  split; [exact H4|]. split.
  - destruct (proj1 (regionEffect_overlay Sample.calculateAirtime
                       Sample.getDataRates Sample.range Sample.as923
                       (Some Sample.eu868) CR4_5 (Some CR4_5)
                       Sample.mounted_eu868) 500 H1 H2)
      as (line & label & ss & aa & Hs & _ & Hy0 & _ & Ha & _ & Hy).
    exists line, label, ss, aa.
    split; [exact Hs|]. split; [exact Hy0|]. split; [exact Ha|]. exact Hy.
  - destruct (proj2 (regionEffect_overlay Sample.calculateAirtime
                       Sample.getDataRates Sample.range Sample.eu868
                       (Some Sample.as923) CR4_5 (Some CR4_5)
                       Sample.mounted_as923) H3 H4)
      as (Hs & Ha & _).
    split; [exact Hs | exact Ha].
Defined.





(** C10 at viewport width 970. *)
Lemma fixed_scale_range_witness :
  xAxisFitFullRange Sample.fixed_scale = false /\
  (length (default [] (xa_range (xaxis (currentLayout Sample.fixed_scale))))
   <= 2)%nat /\
  xa_range (xaxis (currentLayout (horizontalEffect 970 Sample.fixed_scale)))
  = Some [0%R; (329 / 3)%R].
Proof.
  assert (H1 : xAxisFitFullRange Sample.fixed_scale = false) by reflexivity.
  assert (H2 : (length (default [] (xa_range (xaxis
                  (currentLayout Sample.fixed_scale)))) <= 2)%nat)
    by (simpl; lia).
  split; [exact H1|]. split; [exact H2|].
  exact (proj2 (proj2 (fixed_scale_range 970 Sample.fixed_scale H1 H2)) eq_refl).
Defined.

(** * Further properties of the effects *)

(** ** What an effect leaves alone *)

Lemma mergeArray_self {A : Type} (l : list A) :
  mergeArray (fun _ v => v) l l = l.
Proof. induction l as [|a l IH]; simpl; [reflexivity | now rewrite IH]. Qed.

Lemma mergeArray_onto_nil {A : Type} (l : list A) :
  mergeArray (fun _ v => v) [] l = l.
Proof. induction l as [|a l IH]; simpl; [reflexivity | now rewrite IH]. Qed.

(** The layout read after the deletion of Graph.tsx:172-177, whether or not
    the reference is in the store. *)
Lemma currentLayout_deleteOverlay (st : GraphState) :
  shapes (currentLayout (deleteOverlay st)) = None /\
  annotations (currentLayout (deleteOverlay st)) = None /\
  xaxis (currentLayout (deleteOverlay st)) = xaxis (currentLayout st) /\
  yaxis (currentLayout (deleteOverlay st)) = yaxis (currentLayout st).
Proof.
  unfold currentLayout, readLayout, deleteOverlay, mutateLayout; simpl.
  destruct (decide (layout st < length (store st))%nat) as [Hlt|Hge].
  - rewrite list_lookup_insert_eq by exact Hlt. simpl. now repeat split.
  - rewrite list_insert_ge by lia.
    rewrite (proj2 (lookup_ge_None (store st) (layout st))) by lia.
    now repeat split.
Qed.

Section EffectFrames.

Variable calculateAirtime :
  Z -> option SpreadingFactor -> option Bandwidth -> CodingRate -> LoraMode ->
  Z -> bool -> bool -> bool -> R.
Variable getDataRates : Region -> list DataRate.
Variable range : Z -> Z -> Z -> list Z.

Lemma updateGraph_flags prevRegion prevCodingRate region codingRate
    spreadingFactor bandwidth loraMode overhead maxPayloadSize st :
  xAxisFitFullRange
    (updateGraph calculateAirtime getDataRates range
       prevRegion prevCodingRate region codingRate spreadingFactor bandwidth
       loraMode overhead maxPayloadSize st)
  = xAxisFitFullRange st /\
  yAxisLogarithmic
    (updateGraph calculateAirtime getDataRates range
       prevRegion prevCodingRate region codingRate spreadingFactor bandwidth
       loraMode overhead maxPayloadSize st)
  = yAxisLogarithmic st.
Proof. unfold updateGraph. now destruct (0 <? maxPayloadSize). Qed.

(** The layout after the configuration effect, branch by branch. *)
Lemma currentLayout_regionEffect region prevRegion codingRate prevCodingRate st :
  let st' := regionEffect calculateAirtime getDataRates range
               region prevRegion codingRate prevCodingRate st in
  match codingRate with
  | None => st' = st
  | Some cr =>
      if truthy (maxDwellTime region) then
        currentLayout st'
        = merge (currentLayout st)
            (dwellOverlay (default 0 (maxDwellTime region)) (currentLayout st))
      else if truthy (prevRegion ≫= maxDwellTime) then
        shapes (currentLayout st') = None /\
        annotations (currentLayout st') = None /\
        xaxis (currentLayout st') = xaxis (currentLayout st) /\
        yaxis (currentLayout st') = yaxis (currentLayout st)
      else
        store st' = store st /\ layout st' = layout st
  end.
Proof.
  intros st'. unfold st', regionEffect.
  destruct codingRate as [cr|]; [|reflexivity].
  destruct (truthy (maxDwellTime region)).
  - now rewrite currentLayout_mergeAndTriggerRender, updateGraph_currentLayout.
  - destruct (truthy (prevRegion ≫= maxDwellTime)).
    + rewrite <- (updateGraph_currentLayout calculateAirtime getDataRates range
                    prevRegion prevCodingRate region cr
                    (head (spreadingFactors region)) (head (bandwidths region))
                    (loraMode region) 5 (maxMacPayloadSize region + 5) st).
      apply currentLayout_deleteOverlay.
    + apply updateGraph_layout.
Qed.

(** X1: the configuration effect writes nothing but the series, the revision
    and the overlay: the two axis flags keep their values and the layout keeps
    its x axis and its y axis, whatever the region, the coding rate and the
    previous values are. *)
Theorem regionEffect_keeps_axes region prevRegion codingRate prevCodingRate st :
  let st' := regionEffect calculateAirtime getDataRates range
               region prevRegion codingRate prevCodingRate st in
  xAxisFitFullRange st' = xAxisFitFullRange st /\
  yAxisLogarithmic st' = yAxisLogarithmic st /\
  xaxis (currentLayout st') = xaxis (currentLayout st) /\
  yaxis (currentLayout st') = yaxis (currentLayout st).
Proof.
  intros st'.
  pose proof (currentLayout_regionEffect region prevRegion codingRate
                prevCodingRate st) as Hl.
  fold st' in Hl. simpl in Hl.
  assert (Hflags : xAxisFitFullRange st' = xAxisFitFullRange st /\
                   yAxisLogarithmic st' = yAxisLogarithmic st).
  { unfold st', regionEffect. destruct codingRate as [cr|]; [|now split].
    destruct (truthy (maxDwellTime region));
      [|destruct (truthy (prevRegion ≫= maxDwellTime))]; simpl;
      apply updateGraph_flags. }
  destruct Hflags as [Hx Hy]. split; [exact Hx|]. split; [exact Hy|].
  destruct codingRate as [cr|]; [|now rewrite Hl].
  destruct (truthy (maxDwellTime region)).
  - rewrite Hl. now split.
  - destruct (truthy (prevRegion ≫= maxDwellTime)).
    + now destruct Hl as (_ & _ & Hxa & Hya).
    + destruct Hl as [Hstore Hlayout].
      unfold currentLayout, readLayout. now rewrite Hstore, Hlayout.
Qed.

(** X2: the layout is written by the configuration effect only when a coding
    rate is set and the new region has a dwell time or the previous region had
    one.  In every other run the layout objects and the reference to the
    current one are what they were: an overlay that is there stays, also when
    the current region has no dwell time. *)
Theorem regionEffect_leaves_layout region prevRegion codingRate prevCodingRate st :
  codingRate = None \/
  (truthy (maxDwellTime region) = false /\
   truthy (prevRegion ≫= maxDwellTime) = false) ->
  let st' := regionEffect calculateAirtime getDataRates range
               region prevRegion codingRate prevCodingRate st in
  store st' = store st /\ layout st' = layout st /\
  shapes (currentLayout st') = shapes (currentLayout st) /\
  annotations (currentLayout st') = annotations (currentLayout st).
Proof.
  intros Hcase st'.
  assert (H : store st' = store st /\ layout st' = layout st).
  { pose proof (currentLayout_regionEffect region prevRegion codingRate
                  prevCodingRate st) as Hl.
    fold st' in Hl. simpl in Hl.
    destruct codingRate as [cr|]; [|now rewrite Hl].
    destruct Hcase as [Hnone|[Hnow Hprev]]; [discriminate|].
    now rewrite Hnow, Hprev in Hl. }
  destruct H as [Hstore Hlayout]. split; [exact Hstore|].
  split; [exact Hlayout|].
  unfold currentLayout, readLayout. now rewrite Hstore, Hlayout.
Qed.

End EffectFrames.

(** X3: the two axis effects stay on their axis.  The vertical effect leaves
    the series, the x axis, the lines and the other properties of the y axis
    as they are, and keeps every label but for its y-coordinate; the
    horizontal effect leaves the series, the y axis, the lines and the labels
    as they are, and keeps the title and the ticks of the x axis. *)
Theorem axis_effects_stay_on_their_axis (windowWidth : Z) (st : GraphState) :
  let v := verticalEffect (yAxisLogarithmic st) st in
  let h := horizontalEffect windowWidth st in
  (data v = data st /\
   xaxis (currentLayout v) = xaxis (currentLayout st) /\
   shapes (currentLayout v) = shapes (currentLayout st) /\
   ya_autorange (yaxis (currentLayout v)) = ya_autorange (yaxis (currentLayout st)) /\
   ya_fixedrange (yaxis (currentLayout v)) = ya_fixedrange (yaxis (currentLayout st)) /\
   ya_rangemode (yaxis (currentLayout v)) = ya_rangemode (yaxis (currentLayout st)) /\
   (fun a => setAnnotationY 0 a) <$> default [] (annotations (currentLayout v))
   = (fun a => setAnnotationY 0 a) <$> default [] (annotations (currentLayout st))) /\
  (data h = data st /\
   yaxis (currentLayout h) = yaxis (currentLayout st) /\
   shapes (currentLayout h) = shapes (currentLayout st) /\
   annotations (currentLayout h) = annotations (currentLayout st) /\
   xa_title (xaxis (currentLayout h)) = xa_title (xaxis (currentLayout st)) /\
   xa_ticks (xaxis (currentLayout h)) = xa_ticks (xaxis (currentLayout st))).
Proof.
  intros v h. split.
  - split; [reflexivity|]. unfold v, verticalEffect.
    rewrite currentLayout_mergeAndTriggerRender. unfold merge; simpl.
    do 5 (split; [reflexivity|]).
    destruct (annotations (currentLayout st)) as [l|]; simpl; [|reflexivity].
    rewrite mergeArray_annotation_y, <- list_fmap_compose.
    now apply list_fmap_ext.
  - unfold h, horizontalEffect.
    rewrite !currentLayout_mergeAndTriggerRender. unfold merge; simpl.
    now repeat split.
Qed.

(** ** The horizontal range in fit-all mode *)

(** X4: in fit-all mode the horizontal effect keeps the range the layout
    has, whatever the viewport width, and only when the layout has no range
    does it fall back to the fixed-scale range; the axis is set to fit itself
    to the data and is locked. *)
Theorem fit_all_keeps_range (windowWidth : Z) (st : GraphState) :
  xAxisFitFullRange st = true ->
  let a := xaxis (currentLayout (horizontalEffect windowWidth st)) in
  xa_range a
  = Some (default [0%R; ((IZR windowWidth - 312) / 6)%R]
            (xa_range (xaxis (currentLayout st)))) /\
  xa_autorange a = true /\
  xa_fixedrange a = Some true.
Proof.
  intros Hfit a. unfold a, horizontalEffect.
  rewrite currentLayout_mergeAndTriggerRender, Hfit.
  unfold merge, mergeXAxis, mergeOptArray; simpl.
  split; [|now split].
  destruct (xa_range (xaxis (currentLayout st))) as [r|]; simpl.
  - now rewrite mergeArray_self.
  - reflexivity.
Qed.

(** ** When the effects run *)

Lemma optRegion_neqb_false (a b : option Region) :
  region_addr <$> a = region_addr <$> b -> optRegion_neqb a b = false.
Proof.
  intros Heq. destruct (optRegion_neqb a b) eqn:Hneq; [|reflexivity].
  apply optRegion_neqb_true in Hneq. contradiction.
Qed.

Lemma optCodingRate_neqb_false (a : option CodingRate) :
  optCodingRate_neqb a a = false.
Proof.
  destruct (optCodingRate_neqb a a) eqn:Hneq; [|reflexivity].
  apply optCodingRate_neqb_true in Hneq. contradiction.
Qed.

(** X5: an effect does not run after a render that changed none of its
    dependencies.  For the configuration effect these are the region object,
    the previous region object, the coding rate and the packet size; the
    previous coding rate is not among them, so a change of it alone does not
    run the effect. *)
Theorem effects_skip_unchanged_dependencies
    (calculateAirtime :
       Z -> option SpreadingFactor -> option Bandwidth -> CodingRate ->
       LoraMode -> Z -> bool -> bool -> bool -> R)
    (getDataRates : Region -> list DataRate) (range : Z -> Z -> Z -> list Z)
    (old new : RegionDeps) (prevCodingRate : option CodingRate)
    (windowWidth : Z) (st : GraphState) :
  region_addr (d_region old) = region_addr (d_region new) ->
  region_addr <$> d_prevRegion old = region_addr <$> d_prevRegion new ->
  d_codingRate old = d_codingRate new ->
  d_selectedPacketSize old = d_selectedPacketSize new ->
  useRegionEffect calculateAirtime getDataRates range prevCodingRate
    (Some old) new st = st /\
  useVerticalEffect (Some (yAxisLogarithmic st)) st = st /\
  useHorizontalEffect (Some (windowWidth, xAxisFitFullRange st)) windowWidth st
  = st.
Proof.
  intros Hregion Hprev Hcr Hsize. split; [|split].
  - unfold useRegionEffect, useEffect, RegionDeps_changed, Region_neqb.
    rewrite Hregion, Pos.eqb_refl, (optRegion_neqb_false _ _ Hprev).
    rewrite Hcr, optCodingRate_neqb_false, Hsize, Z.eqb_refl. reflexivity.
  - unfold useVerticalEffect, useEffect.
    now destruct (yAxisLogarithmic st).
  - unfold useHorizontalEffect, useEffect; simpl.
    rewrite Z.eqb_refl. now destruct (xAxisFitFullRange st).
Qed.

(** ** Recomputing the series again *)

Section Recompute.

Variable calculateAirtime :
  Z -> option SpreadingFactor -> option Bandwidth -> CodingRate -> LoraMode ->
  Z -> bool -> bool -> bool -> R.
Variable getDataRates : Region -> list DataRate.
Variable range : Z -> Z -> Z -> list Z.

(** X6: a recomputation that is not a reset, made on the state a
    recomputation with the same arguments has produced, rebuilds the very
    same series, visibilities included; only the revision moves on. *)
Theorem updateGraph_again_same_series
    prevRegion prevCodingRate prevRegion' prevCodingRate' region codingRate
    spreadingFactor bandwidth loraMode overhead maxPayloadSize st :
  0 < maxPayloadSize ->
  resetVisibleTraces codingRate prevCodingRate' region prevRegion' = false ->
  let st1 := updateGraph calculateAirtime getDataRates range
               prevRegion prevCodingRate region codingRate spreadingFactor
               bandwidth loraMode overhead maxPayloadSize st in
  let st2 := updateGraph calculateAirtime getDataRates range
               prevRegion' prevCodingRate' region codingRate spreadingFactor
               bandwidth loraMode overhead maxPayloadSize st1 in
  data st2 = data st1 /\ revision st2 = revision st + 2.
Proof.
  intros Hpos Hreset st1 st2. split.
  - apply list_eq. intros i. unfold st2.
    rewrite updateGraph_lookup by exact Hpos.
    assert (Hst1 : data st1 !! i
                   = trace calculateAirtime range (data st) prevRegion
                       prevCodingRate region codingRate spreadingFactor
                       bandwidth loraMode overhead maxPayloadSize i
                     <$> getDataRates region !! i)
      by (now apply updateGraph_lookup).
    rewrite Hst1.
    destruct (getDataRates region !! i) as [dr|] eqn:Hdr; simpl; [|reflexivity].
    f_equal. unfold trace. rewrite Hreset, Hst1. reflexivity.
  - unfold st2, st1. rewrite !updateGraph_accepted by exact Hpos. simpl. lia.
Qed.

End Recompute.

Section Reset.

Variable calculateAirtime :
  Z -> option SpreadingFactor -> option Bandwidth -> CodingRate -> LoraMode ->
  Z -> bool -> bool -> bool -> R.
Variable getDataRates : Region -> list DataRate.
Variable range : Z -> Z -> Z -> list Z.

(** X7: without a previous region or without a previous coding rate, as on
    the first render, the recomputation is a reset; and the series a reset
    builds owe nothing to the series that were there: two states give the
    same series. *)
Theorem updateGraph_reset_forgets
    prevRegion prevCodingRate region codingRate
    spreadingFactor bandwidth loraMode overhead maxPayloadSize st1 st2 :
  0 < maxPayloadSize ->
  (prevRegion = None \/ prevCodingRate = None ->
   resetVisibleTraces codingRate prevCodingRate region prevRegion = true) /\
  (resetVisibleTraces codingRate prevCodingRate region prevRegion = true ->
   data (updateGraph calculateAirtime getDataRates range
           prevRegion prevCodingRate region codingRate spreadingFactor
           bandwidth loraMode overhead maxPayloadSize st1)
   = data (updateGraph calculateAirtime getDataRates range
             prevRegion prevCodingRate region codingRate spreadingFactor
             bandwidth loraMode overhead maxPayloadSize st2)).
Proof.
  intros Hpos. split.
  - unfold resetVisibleTraces. intros [-> | ->]; simpl.
    + apply orb_true_r.
    + reflexivity.
  - intros Hreset. apply list_eq. intros i.
    rewrite !updateGraph_lookup by exact Hpos.
    destruct (getDataRates region !! i) as [dr|]; simpl; [|reflexivity].
    unfold trace. now rewrite Hreset.
Qed.

End Reset.

(** ** What holds in every state the component reaches *)

Section Reachable.

Variable calculateAirtime :
  Z -> option SpreadingFactor -> option Bandwidth -> CodingRate -> LoraMode ->
  Z -> bool -> bool -> bool -> R.
Variable getDataRates : Region -> list DataRate.
Variable range : Z -> Z -> Z -> list Z.

(** An invariant of every step is an invariant of every run. *)
Lemma run_invariant (P : GraphState -> Prop) :
  (forall (s : Step) (st : GraphState),
     P st -> P (runStep calculateAirtime getDataRates range s st)) ->
  forall (steps : list Step) (st : GraphState),
    P st -> P (run calculateAirtime getDataRates range steps st).
Proof.
  intros Hstep steps. induction steps as [|s steps IH]; intros st HP; simpl.
  - exact HP.
  - apply IH, Hstep, HP.
Qed.

Lemma overlayShape_dwellOverlay (maxDwell : Z) (l : Layout) :
  overlayShape l ->
  overlayAt (match ya_type (yaxis l) with Some AxisLog => true | _ => false end)
    (IZR maxDwell) (merge l (dwellOverlay maxDwell l)).
Proof.
  intros Hl. unfold overlayAt, merge, dwellOverlay; simpl.
  destruct Hl as [[Hs Ha] | (line & label & Hs & _ & Ha & _)];
    rewrite Hs, Ha; simpl; eexists _, _;
    (repeat split; try reflexivity);
    simpl; now destruct (ya_type (yaxis l)) as [[]|].
Qed.

Lemma overlayAt_overlayShape (logarithmic : bool) (threshold : R) (l : Layout) :
  overlayAt logarithmic threshold l -> overlayShape l.
Proof.
  intros (line & label & Hs & Hy0 & Hy1 & Ha & Htext & _).
  right. exists line, label. repeat split; try assumption. congruence.
Qed.

Lemma overlayShape_same (l l' : Layout) :
  shapes l' = shapes l -> annotations l' = annotations l ->
  overlayShape l -> overlayShape l'.
Proof. unfold overlayShape. intros -> ->. tauto. Qed.

Lemma overlayShape_runStep (s : Step) (st : GraphState) :
  overlayShape (currentLayout st) ->
  overlayShape (currentLayout (runStep calculateAirtime getDataRates range s st)).
Proof.
  intros Hinv. destruct s as [region prevRegion codingRate prevCodingRate
                             | | windowWidth | b | b]; simpl.
  - pose proof (currentLayout_regionEffect calculateAirtime getDataRates range
                  region prevRegion codingRate prevCodingRate st) as Hl.
    simpl in Hl. destruct codingRate as [cr|]; [|now rewrite Hl].
    destruct (truthy (maxDwellTime region)).
    + rewrite Hl. eapply overlayAt_overlayShape.
      now apply overlayShape_dwellOverlay.
    + destruct (truthy (prevRegion ≫= maxDwellTime)).
      * destruct Hl as (Hs & Ha & _). now left.
      * destruct Hl as [Hstore Hlayout].
        unfold currentLayout, readLayout in *. now rewrite Hstore, Hlayout.
  - destruct (verticalEffect_layout (yAxisLogarithmic st) st) as (Hs & Ha & _).
    destruct Hinv as [[Hs0 Ha0] | (line & label & Hs0 & Hy & Ha0 & Htext)].
    + left. rewrite Hs, Ha, Hs0, Ha0. now split.
    + right. exists line.
      exists (setAnnotationY
                (toLogarithmic (yAxisLogarithmic st) (an_y label)) label).
      rewrite Hs, Ha, Hs0, Ha0. now repeat split.
  - apply (overlayShape_same (currentLayout st)); [| |exact Hinv];
      unfold horizontalEffect; now rewrite currentLayout_mergeAndTriggerRender.
  - exact Hinv.
  - exact Hinv.
Qed.

(** X8: in every state the component reaches from its initial state, by any
    run of its effects and flag changes, the overlay is either absent
    altogether or exactly one horizontal line (y0 = y1) with exactly one
    label "max dwell time": running the configuration effect again and again
    never piles lines or labels up, and never leaves one without the other. *)
Theorem overlay_absent_or_single (steps : list Step) :
  overlayShape
    (currentLayout (run calculateAirtime getDataRates range steps initialState)).
Proof.
  apply (run_invariant (fun st => overlayShape (currentLayout st))).
  - apply overlayShape_runStep.
  - left. now split.
Qed.

(** X9: in every state the component reaches, a configuration change to a
    region with a non-zero dwell time leaves exactly one line, at that
    threshold, and exactly one label, at the threshold or on a logarithmic
    axis at its base-10 logarithm; nothing of an earlier region's overlay
    remains. *)
Theorem overlay_replaced_by_new_threshold (steps : list Step)
    (region : Region) (prevRegion : option Region) (codingRate : CodingRate)
    (prevCodingRate : option CodingRate) (threshold : Z) :
  maxDwellTime region = Some threshold ->
  threshold <> 0 ->
  let st := run calculateAirtime getDataRates range steps initialState in
  overlayAt
    (match ya_type (yaxis (currentLayout st)) with
     | Some AxisLog => true
     | _ => false
     end)
    (IZR threshold)
    (currentLayout
       (regionEffect calculateAirtime getDataRates range region prevRegion
          (Some codingRate) prevCodingRate st)).
Proof.
  intros Hdwell Hnz st.
  pose proof (currentLayout_regionEffect calculateAirtime getDataRates range
                region prevRegion (Some codingRate) prevCodingRate st) as Hl.
  assert (Htruthy : truthy (maxDwellTime region) = true).
  { rewrite Hdwell. simpl. now destruct (Z.eqb_spec threshold 0). }
  cbv zeta in Hl. rewrite Htruthy in Hl. rewrite Hl, Hdwell. simpl default.
  apply overlayShape_dwellOverlay.
  unfold st. apply (run_invariant (fun s => overlayShape (currentLayout s))).
  - apply overlayShape_runStep.
  - left. now split.
Qed.

End Reachable.

Section ReachableAxesAndSeries.

Variable calculateAirtime :
  Z -> option SpreadingFactor -> option Bandwidth -> CodingRate -> LoraMode ->
  Z -> bool -> bool -> bool -> R.
Variable getDataRates : Region -> list DataRate.
Variable range : Z -> Z -> Z -> list Z.





Lemma seriesShape_updateGraph prevRegion prevCodingRate region codingRate
    spreadingFactor bandwidth loraMode overhead maxPayloadSize st :
  Forall seriesShape (data st) ->
  Forall seriesShape
    (data (updateGraph calculateAirtime getDataRates range
             prevRegion prevCodingRate region codingRate spreadingFactor
             bandwidth loraMode overhead maxPayloadSize st)).
Proof.
  intros Hinv. unfold updateGraph.
  destruct (0 <? maxPayloadSize); [|exact Hinv]. simpl.
  apply Forall_forall. intros t Ht.
  apply elem_of_lookup_imap_1 in Ht as (i & dr & -> & _).
  unfold seriesShape, trace; simpl. split; [apply length_map|].
  split; [eexists; reflexivity | reflexivity].
Qed.

Lemma seriesShape_runStep (s : Step) (st : GraphState) :
  Forall seriesShape (data st) ->
  Forall seriesShape (data (runStep calculateAirtime getDataRates range s st)).
Proof.
  intros Hinv. destruct s as [region prevRegion codingRate prevCodingRate
                             | | windowWidth | b | b]; simpl; try exact Hinv.
  destruct codingRate as [cr|]; [|exact Hinv].
  rewrite data_regionEffect. now apply seriesShape_updateGraph.
Qed.

(** X11: in every state the component reaches, every series has as many
    y-values as x-values, has a visibility, and is drawn as lines. *)
Theorem series_well_formed (steps : list Step) :
  Forall seriesShape
    (data (run calculateAirtime getDataRates range steps initialState)).
Proof.
  apply (run_invariant calculateAirtime getDataRates range
           (fun st => Forall seriesShape (data st))).
  - apply seriesShape_runStep.
  - constructor.
Qed.

End ReachableAxesAndSeries.

(** ** The further properties on concrete inputs *)

(** X2 while the coding rate is missing: the region is switched from [as923]
    to [eu868] and the overlay of [as923] stays. *)
Lemma regionEffect_leaves_layout_witness :
  (@None CodingRate = None \/
   truthy (maxDwellTime Sample.eu868) = false /\
   truthy (Some Sample.as923 ≫= maxDwellTime) = false) /\
  shapes (currentLayout
            (Sample.regionEffect Sample.eu868 (Some Sample.as923) None
               (Some CR4_5) Sample.mounted_as923))
  = shapes (currentLayout Sample.mounted_as923) /\
  is_Some (shapes (currentLayout Sample.mounted_as923)).
Proof.
  assert (H : @None CodingRate = None \/
              truthy (maxDwellTime Sample.eu868) = false /\
              truthy (Some Sample.as923 ≫= maxDwellTime) = false)
    by (left; reflexivity).
  split; [exact H|]. split.
  - exact (proj1 (proj2 (proj2
             (regionEffect_leaves_layout Sample.calculateAirtime
                Sample.getDataRates Sample.range Sample.eu868
                (Some Sample.as923) None (Some CR4_5) Sample.mounted_as923 H)))).
  - eexists. reflexivity.
Defined.

(** X4 on the initial layout at width 970: the range stays [[0, 100]]. *)
Lemma fit_all_keeps_range_witness :
  xAxisFitFullRange initialState = true /\
  xa_range (xaxis (currentLayout (horizontalEffect 970 initialState)))
  = Some [0%R; 100%R].
Proof.
  assert (H : xAxisFitFullRange initialState = true) by reflexivity.
  split; [exact H|].
  exact (proj1 (fit_all_keeps_range 970 initialState H)).
Defined.

(** X5 on two renders of [eu868] that differ in the previous coding rate
    only. *)
Lemma effects_skip_unchanged_dependencies_witness :
  region_addr (d_region Sample.deps_size20)
  = region_addr (d_region Sample.deps_size20) /\
  Sample.useRegionEffect (Some CR4_8) (Some Sample.deps_size20)
    Sample.deps_size20 Sample.mounted_eu868
  = Sample.mounted_eu868.
Proof.
  split; [reflexivity|].
  exact (proj1 (effects_skip_unchanged_dependencies Sample.calculateAirtime
                  Sample.getDataRates Sample.range Sample.deps_size20
                  Sample.deps_size20 (Some CR4_8) 970 Sample.mounted_eu868
                  eq_refl eq_refl eq_refl eq_refl)).
Defined.

(** X6 on [eu868]: a reset, then a recomputation that is none. *)
Lemma updateGraph_again_same_series_witness :
  0 < 247 /\
  resetVisibleTraces CR4_5 (Some CR4_5) Sample.eu868 (Some Sample.eu868) = false /\
  data (Sample.updateGraph (Some Sample.eu868) (Some CR4_5) Sample.eu868 CR4_5
          (Some 7) (Some 125) "lora" 5 247
          (Sample.updateGraph None None Sample.eu868 CR4_5
             (Some 7) (Some 125) "lora" 5 247 Sample.toggled_eu868))
  = data (Sample.updateGraph None None Sample.eu868 CR4_5
            (Some 7) (Some 125) "lora" 5 247 Sample.toggled_eu868).
Proof.
  assert (H1 : 0 < 247) by lia.
  assert (H2 : resetVisibleTraces CR4_5 (Some CR4_5) Sample.eu868
                 (Some Sample.eu868) = false) by reflexivity.
  split; [exact H1|]. split; [exact H2|].
  exact (proj1 (updateGraph_again_same_series Sample.calculateAirtime
                  Sample.getDataRates Sample.range None None
                  (Some Sample.eu868) (Some CR4_5) Sample.eu868 CR4_5
                  (Some 7) (Some 125) "lora" 5 247 Sample.toggled_eu868 H1 H2)).
Defined.

(** X7 on the first render of [eu868], from the initial state and from the
    state with the user's visibilities. *)
Lemma updateGraph_reset_forgets_witness :
  0 < 247 /\
  (@None Region = None \/ @None CodingRate = None) /\
  data (Sample.updateGraph None None Sample.eu868 CR4_5
          (Some 7) (Some 125) "lora" 5 247 initialState)
  = data (Sample.updateGraph None None Sample.eu868 CR4_5
            (Some 7) (Some 125) "lora" 5 247 Sample.toggled_eu868).
Proof.
  assert (H1 : 0 < 247) by lia.
  assert (H2 : @None Region = None \/ @None CodingRate = None)
    by (left; reflexivity).
  split; [exact H1|]. split; [exact H2|].
  destruct (updateGraph_reset_forgets Sample.calculateAirtime
              Sample.getDataRates Sample.range None None Sample.eu868 CR4_5
              (Some 7) (Some 125) "lora" 5 247 initialState
              Sample.toggled_eu868 H1) as [Hfirst Hforget].
  exact (Hforget (Hfirst H2)).
Defined.

(** X9 after the sample run, which ends on a logarithmic axis without an
    overlay: the switch to [as923] puts the label at [log10 500]. *)
Lemma overlay_replaced_by_new_threshold_witness :
  maxDwellTime Sample.as923 = Some 500 /\
  500 <> 0 /\
  overlayAt true 500
    (currentLayout
       (Sample.regionEffect Sample.as923 (Some Sample.eu868) (Some CR4_5)
          (Some CR4_5) (SampleRun.run SampleRun.steps initialState))).
Proof.
  assert (H1 : maxDwellTime Sample.as923 = Some 500) by reflexivity.
  assert (H2 : 500 <> 0) by lia.
  split; [exact H1|]. split; [exact H2|].
  exact (overlay_replaced_by_new_threshold Sample.calculateAirtime
           Sample.getDataRates Sample.range SampleRun.steps Sample.as923
           (Some Sample.eu868) CR4_5 (Some CR4_5) 500 H1 H2).
Defined.

(** ** The revision along a run *)

Section RevisionAlongRuns.

Variable calculateAirtime :
  Z -> option SpreadingFactor -> option Bandwidth -> CodingRate -> LoraMode ->
  Z -> bool -> bool -> bool -> R.
Variable getDataRates : Region -> list DataRate.
Variable range : Z -> Z -> Z -> list Z.

Lemma revision_updateGraph_bounds prevRegion prevCodingRate region codingRate
    spreadingFactor bandwidth loraMode overhead maxPayloadSize st :
  revision st
  <= revision (updateGraph calculateAirtime getDataRates range
                 prevRegion prevCodingRate region codingRate spreadingFactor
                 bandwidth loraMode overhead maxPayloadSize st)
  <= revision st + 1.
Proof.
  unfold updateGraph. destruct (0 <? maxPayloadSize); simpl; lia.
Qed.

Lemma revision_runStep_bounds (s : Step) (st : GraphState) :
  revision st
  <= revision (runStep calculateAirtime getDataRates range s st)
  <= revision st + 2.
Proof.
  destruct s as [region prevRegion codingRate prevCodingRate
                | | windowWidth | b | b]; simpl; try lia.
  unfold regionEffect. destruct codingRate as [cr|]; [|lia].
  pose proof (revision_updateGraph_bounds prevRegion prevCodingRate region cr
                (head (spreadingFactors region)) (head (bandwidths region))
                (loraMode region) 5 (maxMacPayloadSize region + 5) st) as Hu.
  destruct (truthy (maxDwellTime region)).
  - rewrite revision_mergeAndTriggerRender. lia.
  - destruct (truthy (prevRegion ≫= maxDwellTime)).
    + rewrite revision_deleteOverlay. lia.
    + lia.
Qed.

(** X12: along any run of effects and flag changes, from any state, the
    revision never goes back, and it advances by at most two per step. *)
Theorem revision_never_goes_back (steps : list Step) (st : GraphState) :
  revision st
  <= revision (run calculateAirtime getDataRates range steps st)
  <= revision st + 2 * Z.of_nat (length steps).
Proof.
  revert st. induction steps as [|s steps IH]; intros st; simpl run.
  - simpl. lia.
  - pose proof (revision_runStep_bounds s st) as Hs.
    pose proof (IH (runStep calculateAirtime getDataRates range s st)) as Hr.
    rewrite length_cons, Nat2Z.inj_succ. lia.
Qed.

End RevisionAlongRuns.
